(** * react-spreadsheet: the utility surface of [src/util.ts]

    A shallow embedding of the pure helpers of the spreadsheet core
    (number ranges, clipboard reads, pixel dimensions of a selection,
    the evaluator dispatch, selection normalisation, CSV export and the
    grid sizing helper) together with the properties stated for them.

    Conventions of the embedding.
    - An object that may be [undefined] is an [option]; a type guard
      ([x is T]) is a function into [option T] that narrows.
    - JavaScript numbers are doubles. Grid coordinates, array lengths and
      pixel offsets are small integers and are [nat] or [Z]. The counter
      of [range] can be any integer-valued double: it is a [Z] whose
      sums are rounded to the nearest double, which starts to matter at
      2^53.
    - A [for] loop whose termination depends on its arguments is a
      function with fuel: [None] means that the fuel ran out before the
      loop condition became false.
    - The modules [./point], [./point-range], [./matrix], [./formula] and
      [./types] are imported by the file but are not part of the sources
      at hand; what is needed of them is written down from the
      specification and marked as such. *)

From stdpp Require Import base option list sorting strings gmap.
From Stdlib Require Import ZArith String Ascii Lia Bool DecimalString.

Local Open Scope Z_scope.

(** ** JavaScript values *)

(** The dynamic values that can sit in a cell or come back from the
    formula parser. Numbers are the integer-valued ones: none of the
    functions below does arithmetic on a cell value, they only test its
    truthiness and convert it to a string. *)
Inductive JSValue : Type :=
| JUndefined
| JNull
| JBoolean (b : bool)
| JNumber (n : Z)
| JString (s : string).

(** [Boolean(v)]: [undefined], [null], [false], [0] and the empty string
    are falsy, everything else is truthy. *)
Definition truthy (v : JSValue) : bool :=
  match v with
  | JUndefined | JNull => false
  | JBoolean b => b
  | JNumber n => negb (n =? 0)
  | JString s => negb (String.eqb s EmptyString)
  end.

(** [a || b] *)
Definition js_or (a b : JSValue) : JSValue :=
  if truthy a then a else b.

(** [String(v)] *)
Definition js_String (v : JSValue) : string :=
  match v with
  | JUndefined => "undefined"
  | JNull => "null"
  | JBoolean true => "true"
  | JBoolean false => "false"
  | JNumber n => NilZero.string_of_int (Z.to_int n)
  | JString s => s
  end.

Definition PLAIN_TEXT_MIME : string := "text/plain".

(** ** Numbers *)

(** The integers among the doubles are modelled by their value in [Z].
    The sum or difference of two of them is the exact one rounded to the
    nearest double, ties to the even significand, as IEEE 754 has it. Up
    to [2^53] in magnitude every integer is a double and the rounding
    does nothing; beyond, a double has 53 significant bits, so only
    every second, then every fourth, ... integer is one. A result beyond
    the largest double would be [Infinity]: the rounding below yields a
    value of at least [2^1024] instead, which compares with every double
    the way [Infinity] does. *)
Definition EXACT_LIMIT : Z := 2 ^ 53.

(** A magnitude of at least [2^53], rounded to 53 significant bits. *)
Definition round_magnitude (magnitude : Z) : Z :=
  let ulp := 2 ^ (Z.log2 magnitude - 52) in
  let quotient := magnitude / ulp in
  let remainder := magnitude mod ulp in
  let significand :=
    if 2 * remainder <? ulp then quotient
    else if ulp <? 2 * remainder then quotient + 1
    else if Z.even quotient then quotient
    else quotient + 1 in
  significand * ulp.

Definition round_double (z : Z) : Z :=
  if Z.abs z <? EXACT_LIMIT then z else Z.sgn z * round_magnitude (Z.abs z).

(** [a + b] and [a - b] on doubles. *)
Definition double_add (a b : Z) : Z := round_double (a + b).

Definition double_sub (a b : Z) : Z := round_double (a - b).

(** ** [range] *)

(** The two [for] loops of [range]. [array.push(element)] appends at the
    end; each iteration consumes one unit of fuel. *)
Fixpoint range_descending (fuel : nat) (end_ step element : Z) (array : list Z)
  : option (list Z) :=
  match fuel with
  | O => None
  | S fuel' =>
      if element >? end_
      then range_descending fuel' end_ step (double_sub element step)
                            (array ++ [element])
      else Some array
  end.

Fixpoint range_ascending (fuel : nat) (end_ step element : Z) (array : list Z)
  : option (list Z) :=
  match fuel with
  | O => None
  | S fuel' =>
      if element <? end_
      then range_ascending fuel' end_ step (double_add element step)
                           (array ++ [element])
      else Some array
  end.

(** [range(end, start = 0, step = 1)]; the defaults are supplied by
    [range_default]. *)
Definition range (fuel : nat) (end_ start step : Z) : option (list Z) :=
  if Z.sgn (double_sub end_ start) =? -1
  then range_descending fuel end_ step start []
  else range_ascending fuel end_ step start [].


(** The values the loops are expected to produce: [count] values from
    [start] in steps of [step], upwards or downwards. *)
Definition progression (start stride : Z) (count : nat) : list Z :=
  map (fun i : nat => start + Z.of_nat i * stride) (seq 0 count).

(** Number of iterations: the least [n] with [n * step >= distance]. *)
Definition iterations (distance step : Z) : nat :=
  Z.to_nat ((distance + step - 1) / step).

(** ** The imported modules *)

Module Point.

(** Modelled from the spec: [./point] is not among the sources. A grid
    coordinate is a pair of non-negative integers, equality is
    structural and the origin is [(0, 0)]. *)
Record Point : Type := { row : nat; column : nat }.

Definition ORIGIN : Point := {| row := 0; column := 0 |}.

Definition isEqual (a b : Point) : bool :=
  Nat.eqb (row a) (row b) && Nat.eqb (column a) (column b).

(** Row-major order: rows first, then columns. *)
Definition lt (a b : Point) : Prop :=
  (row a < row b)%nat \/ (row a = row b /\ (column a < column b)%nat).

End Point.

Module PointRange.

(** Modelled from the spec: [./point-range] is not among the sources.
    An inclusive rectangle given by two corners. *)
Record PointRange : Type := { start : Point.Point; end_ : Point.Point }.

(** Modelled from the spec: the constructor takes the componentwise
    minimum and maximum of two arbitrary corners. *)
Definition create (a b : Point.Point) : PointRange :=
  {| start := {| Point.row := Nat.min (Point.row a) (Point.row b);
                 Point.column := Nat.min (Point.column a) (Point.column b) |};
     end_ := {| Point.row := Nat.max (Point.row a) (Point.row b);
                Point.column := Nat.max (Point.column a) (Point.column b) |} |}.

Definition clamp (lo hi x : nat) : nat := Nat.min (Nat.max x lo) hi.

Definition clampPoint (bounds : PointRange) (p : Point.Point) : Point.Point :=
  {| Point.row :=
       clamp (Point.row (start bounds)) (Point.row (end_ bounds)) (Point.row p);
     Point.column :=
       clamp (Point.column (start bounds)) (Point.column (end_ bounds))
             (Point.column p) |}.

(** Modelled from the spec: [mask(range, bounds)] clamps both corners
    of [range] into [bounds], componentwise; a range that lies beyond
    the bounds collapses onto the boundary. *)
Definition mask (range bounds : PointRange) : PointRange :=
  {| start := clampPoint bounds (start range);
     end_ := clampPoint bounds (end_ range) |}.

(** Modelled from the spec: [iterate(range)] yields the points of the
    rectangle, both corners included, with an outer loop over the rows
    and an inner loop over the columns. The list is the sequence the
    generator yields. *)
Definition iterate (range : PointRange) : list Point.Point :=
  flat_map
    (fun r =>
       map (fun c => {| Point.row := r; Point.column := c |})
           (seq (Point.column (start range))
                (S (Point.column (end_ range)) - Point.column (start range))))
    (seq (Point.row (start range))
         (S (Point.row (end_ range)) - Point.row (start range))).

(** [inner] lies inside [outer]: both corners of [inner] are points of
    the rectangle [outer]. *)
Definition inside (outer : PointRange) (p : Point.Point) : Prop :=
  (Point.row (start outer) <= Point.row p <= Point.row (end_ outer))%nat /\
  (Point.column (start outer) <= Point.column p
     <= Point.column (end_ outer))%nat.

Definition contains (outer inner : PointRange) : Prop :=
  inside outer (start inner) /\ inside outer (end_ inner).

End PointRange.

Module Matrix.

(** Modelled from the spec: [./matrix] is not among the sources. A
    matrix is an array of rows; an entry that is missing or [undefined]
    is [None]. *)
Definition Matrix (T : Type) : Type := list (list (option T)).

Record Size : Type := { rows : nat; columns : nat }.

(** Modelled from the spec: a point out of range yields [undefined]. *)
Definition get {T} (point : Point.Point) (matrix : Matrix T) : option T :=
  match matrix !! Point.row point with
  | Some cells =>
      match cells !! Point.column point with
      | Some cell => cell
      | None => None
      end
  | None => None
  end.

(** One past the last present entry of a row, [0] for a row without any. *)
Fixpoint rowExtent {T} (cells : list (option T)) : nat :=
  match cells with
  | [] => 0
  | cell :: rest =>
      match rowExtent rest, cell with
      | O, None => 0
      | n, _ => S n
      end
  end.

(** One past the last row that has a present entry. *)
Fixpoint rowsExtent {T} (matrix : Matrix T) : nat :=
  match matrix with
  | [] => 0
  | cells :: rest =>
      match rowsExtent rest, rowExtent cells with
      | O, O => 0
      | n, _ => S n
      end
  end.

Definition columnsExtent {T} (matrix : Matrix T) : nat :=
  foldr (fun cells acc => Nat.max (rowExtent cells) acc) 0%nat matrix.

(** Modelled from the spec: [maxPoint] scans the present entries and
    returns the point one past the highest occupied row and column, the
    origin for a matrix without entries. *)
Definition maxPoint {T} (matrix : Matrix T) : Point.Point :=
  {| Point.row := rowsExtent matrix; Point.column := columnsExtent matrix |}.

(** Modelled from the spec: the size is derived from [maxPoint]. *)
Definition getSize {T} (matrix : Matrix T) : Size :=
  {| rows := Point.row (maxPoint matrix);
     columns := Point.column (maxPoint matrix) |}.

(** Modelled from the spec: the sub-matrix between two corners,
    re-indexed so that [startPoint] becomes the origin; absent cells
    stay absent. *)
Definition slice {T} (startPoint endPoint : Point.Point) (matrix : Matrix T)
  : Matrix T :=
  map (fun r =>
         map (fun c => get {| Point.row := r; Point.column := c |} matrix)
             (seq (Point.column startPoint)
                  (S (Point.column endPoint) - Point.column startPoint)))
      (seq (Point.row startPoint)
           (S (Point.row endPoint) - Point.row startPoint)).

(** Modelled from the spec: [func] is applied at every position of the
    bounding box, absent cells included; the shape is preserved. *)
Definition map {T U} (func : option T -> U) (matrix : Matrix T) : Matrix U :=
  List.map
    (fun r =>
       List.map
         (fun c => Some (func (get {| Point.row := r; Point.column := c |} matrix)))
         (seq 0 (columns (getSize matrix))))
    (seq 0 (rows (getSize matrix))).

Definition TAB : string := String (ascii_of_nat 9) EmptyString.
Definition NEWLINE : string := String (ascii_of_nat 10) EmptyString.

(** Modelled from the spec: row-major flattening over the bounding box;
    a present value contributes [String(value)], an absent cell an
    empty field. *)
Definition joinWith (matrix : Matrix JSValue)
           (rowDelimiter colDelimiter : string) : string :=
  String.concat rowDelimiter
    (List.map
       (fun r =>
          String.concat colDelimiter
            (List.map
               (fun c =>
                  match get {| Point.row := r; Point.column := c |} matrix with
                  | Some v => js_String v
                  | None => EmptyString
                  end)
               (seq 0 (columns (getSize matrix)))))
       (seq 0 (rows (getSize matrix)))).

Definition join (matrix : Matrix JSValue) : string :=
  joinWith matrix NEWLINE TAB.

End Matrix.

Module Formula.

(** Modelled from the spec: [./formula] is not among the sources. A
    value is a formula value when it is a string that begins with the
    marker; extraction strips the marker. *)
Definition FORMULA_VALUE_PREFIX : string := "=".

Definition isFormulaValue (value : JSValue) : bool :=
  match value with
  | JString s => String.prefix FORMULA_VALUE_PREFIX s
  | _ => false
  end.

Definition extractFormula (value : string) : string :=
  match value with
  | String _ expression => expression
  | EmptyString => EmptyString
  end.

End Formula.

Module Types.

(** Modelled from the spec: [./types] is not among the sources. A cell
    carries a value and display metadata. *)
Record CellBase (Value : Type) : Type :=
  { value : Value; readOnly : option bool; className : option string }.
Arguments value {Value} _.
Arguments readOnly {Value} _.
Arguments className {Value} _.

(** Modelled from the spec: the pixel box of a cell or of a range, with
    the four fields that [getOffsetRect] and [getRangeDimensions] fill. *)
Record Dimensions : Type := { width : Z; height : Z; left : Z; top : Z }.

(** Modelled from the spec: the per-row metadata is the vertical half
    of [Dimensions] and the per-column metadata the horizontal half, so
    that spreading the two into one object gives a full [Dimensions]. *)
Record RowDimensions : Type := { row_height : Z; row_top : Z }.
Record ColumnDimensions : Type := { column_width : Z; column_left : Z }.

(** Modelled from the spec: what is selected is one of five variants,
    of which only [RangeSelection] denotes a concrete rectangle. *)
Inductive Selected : Type :=
| EmptySelection
| RangeSelection (range : PointRange.PointRange)
| EntireRowsSelection (first last : nat)
| EntireColumnsSelection (first last : nat)
| EntireTableSelection.

(** Modelled from the spec: the store holds the matrix, the active
    point, the selection and the dimension metadata, which is keyed by
    row and by column index. *)
Record StoreState : Type :=
  { data : Matrix.Matrix (CellBase JSValue);
    selected : Selected;
    active : option Point.Point;
    rowDimensions : gmap nat RowDimensions;
    columnDimensions : gmap nat ColumnDimensions }.

End Types.

(** Modelled from the spec: [PointRange.is] is the discriminator a holder
    of a selection uses to find out whether it denotes a rectangle; as a
    type guard it hands the rectangle back. *)
Definition PointRange_is (selected : Types.Selected)
  : option PointRange.PointRange :=
  match selected with
  | Types.RangeSelection range => Some range
  | _ => None
  end.

(** ** The formula parser *)

(** What [formulaParser.parse] hands back; a field that the object does
    not have reads as [undefined] when it is destructured. *)
Record ParseResponse : Type := { result : JSValue; error : JSValue }.

Record Parser : Type := { parse : string -> ParseResponse }.

(** The two documented shapes: [{ result }] and [{ error }]. *)
Definition success (r : JSValue) : ParseResponse :=
  {| result := r; error := JUndefined |}.

Definition failure (e : string) : ParseResponse :=
  {| result := JUndefined; error := JString e |}.

(** [FormulaParseResult = string | boolean | number] *)
Definition FormulaParseResult (v : JSValue) : bool :=
  match v with
  | JString _ | JBoolean _ | JNumber _ => true
  | _ => false
  end.

(** ** The clipboard *)

(** A [DataTransfer]-like object; the code tests for [getData] before it
    calls it, so the method itself may be missing. *)
Record DataTransfer : Type := { getData : option (string -> string) }.

Record ClipboardEvent : Type := { clipboardData : option DataTransfer }.

(** The global object, as far as [readTextFromClipboard] looks at it. *)
Record Window : Type := { window_clipboardData : option DataTransfer }.

(** ** [src/util.ts] *)

Definition Cell : Type := Types.CellBase JSValue.

Definition isActive (active : option Point.Point) (point : Point.Point) : bool :=
  match active with
  | Some a => Point.isEqual point a
  | None => false
  end.

Definition readTextFromClipboard (window : Window) (event : ClipboardEvent)
  : string :=
  match window_clipboardData window with
  | Some {| getData := Some windowGetData |} => windowGetData "Text"%string
  | _ =>
      match clipboardData event with
      | Some {| getData := Some eventGetData |} => eventGetData PLAIN_TEXT_MIME
      | _ => EmptyString
      end
  end.

Definition getCellDimensions (point : Point.Point) (state : Types.StoreState)
  : option Types.Dimensions :=
  let rowDimensions := Types.rowDimensions state !! Point.row point in
  let columnDimensions := Types.columnDimensions state !! Point.column point in
  match rowDimensions with
  | None => None
  | Some rowDimensions =>
      match columnDimensions with
      | None => None
      | Some columnDimensions =>
          Some {| Types.width := Types.column_width columnDimensions;
                  Types.height := Types.row_height rowDimensions;
                  Types.left := Types.column_left columnDimensions;
                  Types.top := Types.row_top rowDimensions |}
      end
  end.

Definition getRangeDimensions (state : Types.StoreState)
           (range : PointRange.PointRange) : option Types.Dimensions :=
  let startDimensions := getCellDimensions (PointRange.start range) state in
  let endDimensions := getCellDimensions (PointRange.end_ range) state in
  match startDimensions with
  | None => None
  | Some startDimensions =>
      match endDimensions with
      | None => None
      | Some endDimensions =>
          Some {| Types.width :=
                    Types.left endDimensions + Types.width endDimensions
                    - Types.left startDimensions;
                  Types.height :=
                    Types.top endDimensions + Types.height endDimensions
                    - Types.top startDimensions;
                  Types.top := Types.top startDimensions;
                  Types.left := Types.left startDimensions |}
      end
  end.

Definition isFormulaCell (cell : Cell) : bool :=
  Formula.isFormulaValue (Types.value cell).

(** The narrowing that [isFormulaCell] performs as a type guard: a
    formula cell is a cell whose value is a string. *)
Definition asFormulaCell (cell : Cell) : option (Types.CellBase string) :=
  if isFormulaCell cell
  then match Types.value cell with
       | JString s =>
           Some {| Types.value := s;
                   Types.readOnly := Types.readOnly cell;
                   Types.className := Types.className cell |}
       | _ => None
       end
  else None.

Definition getFormulaComputedValue (cell : Types.CellBase string)
           (formulaParser : Parser) : JSValue :=
  let formula := Formula.extractFormula (Types.value cell) in
  let response := parse formulaParser formula in
  js_or (error response) (result response).

Definition getComputedValue (cell : option Cell) (formulaParser : Parser)
  : JSValue :=
  match cell with
  | None => JNull
  | Some cell =>
      match asFormulaCell cell with
      | Some formulaCell => getFormulaComputedValue formulaCell formulaParser
      | None => Types.value cell
      end
  end.

Definition getMatrixRange {T} (data : Matrix.Matrix T) : PointRange.PointRange :=
  let maxPoint := Matrix.maxPoint data in
  PointRange.create Point.ORIGIN maxPoint.

Definition normalizeSelected {T} (selected : Types.Selected)
           (data : Matrix.Matrix T) : Types.Selected :=
  let dataRange := getMatrixRange data in
  match PointRange_is selected with
  | Some range => Types.RangeSelection (PointRange.mask range dataRange)
  | None => selected
  end.

Definition getSelectedPoints (selected : Types.Selected) : list Point.Point :=
  match PointRange_is selected with
  | Some range => PointRange.iterate range
  | None => []
  end.

Definition getRangeFromMatrix {T} (range : PointRange.PointRange)
           (matrix : Matrix.Matrix T) : Matrix.Matrix T :=
  Matrix.slice (PointRange.start range) (PointRange.end_ range) matrix.

(** [cell?.value || ""] *)
Definition cellValueOrEmpty (cell : option Cell) : JSValue :=
  js_or (match cell with
         | Some c => Types.value c
         | None => JUndefined
         end)
        (JString EmptyString).

Definition getCSV (data : Matrix.Matrix Cell) : string :=
  let valueMatrix := Matrix.map cellValueOrEmpty data in
  Matrix.join valueMatrix.

Definition getSelectedCSV (selected : Types.Selected)
           (data : Matrix.Matrix Cell) : string :=
  match PointRange_is selected with
  | None => EmptyString
  | Some range =>
      let selectedData := getRangeFromMatrix range data in
      getCSV selectedData
  end.

Definition calculateSpreadsheetSize {T} (data : Matrix.Matrix T)
           (rowLabels columnLabels : option (list string)) : Matrix.Size :=
  let size := Matrix.getSize data in
  {| Matrix.rows :=
       match rowLabels with
       | Some labels => Nat.max (Matrix.rows size) (List.length labels)
       | None => Matrix.rows size
       end;
     Matrix.columns :=
       match columnLabels with
       | Some labels => Nat.max (Matrix.columns size) (List.length labels)
       | None => Matrix.columns size
       end |}.

(** ** Vocabulary of the properties *)

(** The state has both the row and the column metadata of a point. *)
Definition hasDimensions (point : Point.Point) (state : Types.StoreState)
  : bool :=
  bool_decide (is_Some (Types.rowDimensions state !! Point.row point)) &&
  bool_decide (is_Some (Types.columnDimensions state !! Point.column point)).

(** The length a label array contributes to the grid size; a missing
    array contributes nothing. *)
Definition labelsLength (labels : option (list string)) : nat :=
  match labels with
  | Some l => List.length l
  | None => 0%nat
  end.

(** The export as the specification words it: a cell contributes its
    literal value, an absent cell the empty string. *)
Definition literalValueOrEmpty (cell : option Cell) : JSValue :=
  match cell with
  | Some c => Types.value c
  | None => JString EmptyString
  end.

Definition getSelectedCSV_literal (selected : Types.Selected)
           (data : Matrix.Matrix Cell) : string :=
  match PointRange_is selected with
  | None => EmptyString
  | Some range =>
      Matrix.join (Matrix.map literalValueOrEmpty (getRangeFromMatrix range data))
  end.

(** ** Sample data *)

(** The object literal [{ value: v }]. *)
Definition cellOf {Value} (v : Value) : Types.CellBase Value :=
  {| Types.value := v; Types.readOnly := None; Types.className := None |}.

(** A parser that answers every expression with the same response. *)
Definition constantParser (response : ParseResponse) : Parser :=
  {| parse := fun _ => response |}.

(** A parser that knows one sum and reports an error for the rest. *)
Definition onePlusOneParser : Parser :=
  {| parse := fun expression =>
                if String.eqb expression "1+1"
                then success (JNumber 2)
                else failure "#ERROR!" |}.

(** [[["a","b"],["c","d"]]], as cells. *)
Definition abcd : Matrix.Matrix Cell :=
  [ [Some (cellOf (JString "a")); Some (cellOf (JString "b"))];
    [Some (cellOf (JString "c")); Some (cellOf (JString "d"))] ].

Definition pointAt (r c : nat) : Point.Point :=
  {| Point.row := r; Point.column := c |}.

(** A single cell that holds the number zero, [[[{ value: 0 }]]]. *)
Definition zeroCell : Matrix.Matrix Cell := [ [Some (cellOf (JNumber 0))] ].

(** The text ["a\tb\nc\td"]. *)
Definition abcdCSV : string :=
  ("a" ++ Matrix.TAB ++ "b" ++ Matrix.NEWLINE ++ "c" ++ Matrix.TAB ++ "d")%string.

(** ** Sample clipboards *)

(** [A] to [Z] become [a] to [z]: the platform lowers the case of a
    format before it looks it up. *)
Definition lowercaseAscii (c : ascii) : ascii :=
  let code := nat_of_ascii c in
  if (65 <=? code)%nat && (code <=? 90)%nat
  then ascii_of_nat (code + 32)
  else c.

Fixpoint lowercase (s : string) : string :=
  match s with
  | EmptyString => EmptyString
  | String c rest => String (lowercaseAscii c) (lowercase rest)
  end.

(** A clipboard object that holds one plain text and nothing else: asked
    for ["text/plain"] or for its legacy name ["Text"] it answers with
    the text, asked for any other format with the empty string. *)
Definition plainTextOnly (text : string) : DataTransfer :=
  {| getData :=
       Some (fun format =>
               if String.eqb (lowercase format) "text"
                  || String.eqb (lowercase format) "text/plain"
               then text
               else EmptyString) |}.

(** A platform whose global accessor holds [text], and an event whose
    clipboard data holds [text]. *)
Definition windowHolding (text : string) : Window :=
  {| window_clipboardData := Some (plainTextOnly text) |}.

Definition eventHolding (text : string) : ClipboardEvent :=
  {| clipboardData := Some (plainTextOnly text) |}.

(** ** [src/stories/LargeTextDataComponents.tsx] *)

(** The elements the components render. Style attributes are left out. *)
#[warnings="-register-all"]
Inductive Element : Type :=
| Text (content : string)
| Br
| Span (key : option nat) (children : list Element)
| Fragment (children : list Element).

(** [s.split(separator)] for a separator of one character: one piece
    more than there are separators, empty pieces included. *)
Fixpoint js_split (separator : ascii) (s : string) : list string :=
  match s with
  | EmptyString => [EmptyString]
  | String c rest =>
      if Ascii.eqb c separator
      then EmptyString :: js_split separator rest
      else match js_split separator rest with
           | piece :: pieces => String c piece :: pieces
           | [] => [String c EmptyString]
           end
  end.

Definition LINE_FEED : ascii := ascii_of_nat 10.

(** [type Value = string | undefined; type Cell = CellBase<Value>] *)
Definition TextCell : Type := Types.CellBase (option string).

(** [<span key={index}><span>{value}</span><br/></span>] *)
Definition lineElement (index : nat) (value : string) : Element :=
  Span (Some index) [Span None [Text value]; Br].

(** [if (cell?.value) { stringSet = cell?.value.split('\n') }]: the test
    fails for a missing cell, a missing value and the empty string. *)
Definition stringSetOf (cell : option TextCell) : list string :=
  match cell with
  | Some c =>
      match Types.value c with
      | Some v =>
          if String.eqb v EmptyString then [] else js_split LINE_FEED v
      | None => []
      end
  | None => []
  end.

Definition LargeTextMultiLineView (cell : option TextCell) : Element :=
  let stringSet := stringSetOf cell in
  Fragment (imap lineElement stringSet).

(** [onChange({ ...cell, value: e.target.value })]: the argument that
    [handleChange] passes on; spreading a missing cell adds nothing. *)
Definition handleChange (cell : option TextCell) (targetValue : string)
  : TextCell :=
  match cell with
  | Some c =>
      {| Types.value := Some targetValue;
         Types.readOnly := Types.readOnly c;
         Types.className := Types.className c |}
  | None => cellOf (Some targetValue)
  end.

(** ** More vocabulary *)

(** How often a character occurs in a string. *)
Fixpoint occurrences (c : ascii) (s : string) : nat :=
  match s with
  | EmptyString => 0
  | String d rest => (if Ascii.eqb d c then 1 else 0) + occurrences c rest
  end.

(** The state after the metadata of one row, or of one column, was
    recorded. *)
Definition withRowDimensions (index : nat) (dimensions : Types.RowDimensions)
           (state : Types.StoreState) : Types.StoreState :=
  {| Types.data := Types.data state;
     Types.selected := Types.selected state;
     Types.active := Types.active state;
     Types.rowDimensions := <[index := dimensions]> (Types.rowDimensions state);
     Types.columnDimensions := Types.columnDimensions state |}.

Definition withColumnDimensions (index : nat)
           (dimensions : Types.ColumnDimensions) (state : Types.StoreState)
  : Types.StoreState :=
  {| Types.data := Types.data state;
     Types.selected := Types.selected state;
     Types.active := Types.active state;
     Types.rowDimensions := Types.rowDimensions state;
     Types.columnDimensions :=
       <[index := dimensions]> (Types.columnDimensions state) |}.

(** A state that knows nothing yet. *)
Definition emptyState : Types.StoreState :=
  {| Types.data := [];
     Types.selected := Types.EmptySelection;
     Types.active := None;
     Types.rowDimensions := ∅;
     Types.columnDimensions := ∅ |}.

(** A parser whose error text for one expression is the string result
    of every other one. *)
Definition lookalikeParser : Parser :=
  {| parse := fun expression =>
                if String.eqb expression "1/0"
                then failure "#DIV/0!"
                else success (JString "#DIV/0!") |}.

(** One row of height 5 and two columns of widths 10 and 20, measured. *)
Definition measuredState : Types.StoreState :=
  withColumnDimensions
    1 {| Types.column_width := 20; Types.column_left := 10 |}
    (withColumnDimensions
       0 {| Types.column_width := 10; Types.column_left := 0 |}
       (withRowDimensions
          0 {| Types.row_height := 5; Types.row_top := 0 |} emptyState)).

(** * Properties *)

(** ** Doubles *)

Lemma round_magnitude_far magnitude :
  EXACT_LIMIT <= magnitude -> EXACT_LIMIT <= round_magnitude magnitude.
Proof.
  unfold EXACT_LIMIT, round_magnitude. intros Hfar.
  assert (Hlog : 53 <= Z.log2 magnitude) by (apply Z.log2_le_pow2; lia).
  destruct (Z.log2_spec magnitude ltac:(lia)) as [Hlow _].
  set (shift := Z.log2 magnitude - 52).
  assert (Hulp : 0 < 2 ^ shift) by (apply Z.pow_pos_nonneg; lia).
  assert (Hsplit : 2 ^ Z.log2 magnitude = 2 ^ shift * 2 ^ 52).
  { rewrite <- Z.pow_add_r by lia. f_equal. lia. }
  assert (Hquotient : 2 ^ 52 <= magnitude / 2 ^ shift).
  { apply Z.div_le_lower_bound; [exact Hulp|]. now rewrite <- Hsplit. }
  cbv zeta.
  set (quotient := magnitude / 2 ^ shift) in *.
  set (remainder := magnitude mod 2 ^ shift).
  assert (Hsignificand :
            2 ^ 52 <= (if 2 * remainder <? 2 ^ shift then quotient
                       else if 2 ^ shift <? 2 * remainder then quotient + 1
                       else if Z.even quotient then quotient
                       else quotient + 1)).
  { destruct (2 * remainder <? 2 ^ shift); [exact Hquotient|].
    destruct (2 ^ shift <? 2 * remainder); [lia|].
    destruct (Z.even quotient); lia. }
  transitivity (2 ^ 52 * 2 ^ shift).
  - rewrite Z.mul_comm, <- Hsplit. apply Z.pow_le_mono_r; lia.
  - apply Z.mul_le_mono_nonneg_r; [lia | exact Hsignificand].
Qed.

(** Up to [2^53] every integer is a double. *)
Lemma round_double_exact z : Z.abs z <= EXACT_LIMIT -> round_double z = z.
Proof.
  intros Hsafe. destruct (Z_lt_le_dec (Z.abs z) EXACT_LIMIT) as [Hlt|Hge].
  - unfold round_double. now rewrite (proj2 (Z.ltb_lt _ _) Hlt).
  - assert (Hcorner : z = EXACT_LIMIT \/ z = - EXACT_LIMIT) by lia.
    destruct Hcorner as [-> | ->]; vm_compute; reflexivity.
Qed.

(** Beyond [2^53] the rounding stays beyond [2^53]. *)
Lemma round_double_above z : EXACT_LIMIT <= z -> EXACT_LIMIT <= round_double z.
Proof.
  intros Hfar. assert (Hpositive : 0 < EXACT_LIMIT) by reflexivity.
  unfold round_double.
  rewrite (proj2 (Z.ltb_ge _ _)) by lia.
  rewrite Z.sgn_pos, Z.abs_eq, Z.mul_1_l by lia.
  now apply round_magnitude_far.
Qed.

Lemma round_double_below z : z <= - EXACT_LIMIT -> round_double z <= - EXACT_LIMIT.
Proof.
  intros Hfar. assert (Hpositive : 0 < EXACT_LIMIT) by reflexivity.
  unfold round_double.
  rewrite (proj2 (Z.ltb_ge _ _)) by lia.
  rewrite Z.sgn_neg, Z.abs_neq by lia.
  pose proof (round_magnitude_far (- z) ltac:(lia)). lia.
Qed.

(** Rounding keeps the sign. *)
Lemma round_double_sgn z : Z.sgn (round_double z) = Z.sgn z.
Proof.
  assert (Hpositive : 0 < EXACT_LIMIT) by reflexivity.
  destruct (Z_le_gt_dec (Z.abs z) EXACT_LIMIT) as [Hsafe|Hfar].
  - now rewrite round_double_exact.
  - destruct (Z_le_gt_dec 0 z).
    + pose proof (round_double_above z ltac:(lia)).
      rewrite !Z.sgn_pos by lia. reflexivity.
    + pose proof (round_double_below z ltac:(lia)).
      rewrite !Z.sgn_neg by lia. reflexivity.
Qed.

(** ** [range] *)

Lemma progression_S start stride count :
  progression start stride (S count)
  = start :: progression (start + stride) stride count.
Proof.
  unfold progression. cbn [seq map]. f_equal; [lia|].
  rewrite <- seq_shift, map_map. apply map_ext. intros i. lia.
Qed.

Lemma progression_length start stride count :
  List.length (progression start stride count) = count.
Proof. unfold progression. now rewrite length_map, length_seq. Qed.

Lemma progression_In start stride count x :
  In x (progression start stride count) <->
  exists i : nat, (i < count)%nat /\ x = start + Z.of_nat i * stride.
Proof.
  unfold progression. rewrite in_map_iff. split.
  - intros (i & <- & Hi). apply in_seq in Hi. exists i. split; [lia | reflexivity].
  - intros (i & Hi & ->). exists i. split; [reflexivity | apply in_seq; lia].
Qed.

Section RangeLoops.

Variables end_ step : Z.

(** The ascending loop stops after [count] pushes when [count] is the
    first multiple of the step that reaches [end_], as long as [end_] is
    not beyond [2^53]: every value that is pushed is then exact, and a
    last sum that is rounded is rounded to a value that is not below
    [end_] either. *)
Lemma range_ascending_stops count :
  forall fuel element array,
    (count < fuel)%nat ->
    end_ <= EXACT_LIMIT -> - EXACT_LIMIT <= element -> 0 <= step ->
    (forall i : nat, (i < count)%nat -> element + Z.of_nat i * step < end_) ->
    end_ <= element + Z.of_nat count * step ->
    range_ascending fuel end_ step element array
    = Some (array ++ progression element step count).
Proof.
  induction count as [|count IH];
    intros fuel element array Hfuel Hend Helement Hstep Hbelow Hreach.
  - destruct fuel as [|fuel]; [lia|]. cbn [range_ascending].
    replace (element <? end_) with false by (symmetry; apply Z.ltb_ge; lia).
    now rewrite app_nil_r.
  - destruct fuel as [|fuel]; [lia|]. cbn [range_ascending].
    replace (element <? end_) with true
      by (symmetry; apply Z.ltb_lt; specialize (Hbelow 0%nat); lia).
    unfold double_add.
    destruct (Z_le_gt_dec (element + step) EXACT_LIMIT) as [Hexact|Hrounded].
    + rewrite round_double_exact by lia. rewrite IH.
      * now rewrite progression_S, <- app_assoc.
      * lia.
      * exact Hend.
      * lia.
      * exact Hstep.
      * intros i Hi. specialize (Hbelow (S i)). lia.
      * lia.
    + assert (count = 0%nat) as ->.
      { destruct count as [|count]; [reflexivity|].
        specialize (Hbelow 1%nat ltac:(lia)). lia. }
      pose proof (round_double_above (element + step) ltac:(lia)) as Hfar.
      rewrite IH.
      * now rewrite progression_S, <- app_assoc.
      * lia.
      * exact Hend.
      * assert (0 < EXACT_LIMIT) by reflexivity. lia.
      * exact Hstep.
      * intros i Hi. lia.
      * lia.
Qed.

Lemma range_descending_stops count :
  forall fuel element array,
    (count < fuel)%nat ->
    - EXACT_LIMIT <= end_ -> element <= EXACT_LIMIT -> 0 <= step ->
    (forall i : nat, (i < count)%nat -> end_ < element - Z.of_nat i * step) ->
    element - Z.of_nat count * step <= end_ ->
    range_descending fuel end_ step element array
    = Some (array ++ progression element (- step) count).
Proof.
  induction count as [|count IH];
    intros fuel element array Hfuel Hend Helement Hstep Habove Hreach.
  - destruct fuel as [|fuel]; [lia|]. cbn [range_descending].
    replace (element >? end_) with false
      by (symmetry; rewrite Z.gtb_ltb; apply Z.ltb_ge; lia).
    now rewrite app_nil_r.
  - destruct fuel as [|fuel]; [lia|]. cbn [range_descending].
    replace (element >? end_) with true
      by (symmetry; rewrite Z.gtb_ltb; apply Z.ltb_lt;
          specialize (Habove 0%nat); lia).
    unfold double_sub.
    destruct (Z_le_gt_dec (- EXACT_LIMIT) (element - step)) as [Hexact|Hrounded].
    + rewrite round_double_exact by lia. rewrite IH.
      * rewrite progression_S, <- app_assoc.
        now replace (element + - step) with (element - step) by lia.
      * lia.
      * exact Hend.
      * lia.
      * exact Hstep.
      * intros i Hi. specialize (Habove (S i)). lia.
      * lia.
    + assert (count = 0%nat) as ->.
      { destruct count as [|count]; [reflexivity|].
        specialize (Habove 1%nat ltac:(lia)). lia. }
      pose proof (round_double_below (element - step) ltac:(lia)) as Hfar.
      rewrite IH.
      * now rewrite progression_S, <- app_assoc.
      * lia.
      * exact Hend.
      * assert (0 < EXACT_LIMIT) by reflexivity. lia.
      * exact Hstep.
      * intros i Hi. lia.
      * lia.
Qed.

(** Once a loop has returned, more fuel does not change what it returns. *)
Lemma range_ascending_more_fuel fuel :
  forall fuel' element array out,
    range_ascending fuel end_ step element array = Some out ->
    (fuel <= fuel')%nat ->
    range_ascending fuel' end_ step element array = Some out.
Proof.
  induction fuel as [|fuel IH]; intros fuel' element array out Hrun Hle;
    [discriminate|].
  destruct fuel' as [|fuel']; [lia|]. cbn [range_ascending] in *.
  destruct (element <? end_); [|assumption]. apply IH; [assumption | lia].
Qed.

Lemma range_descending_more_fuel fuel :
  forall fuel' element array out,
    range_descending fuel end_ step element array = Some out ->
    (fuel <= fuel')%nat ->
    range_descending fuel' end_ step element array = Some out.
Proof.
  induction fuel as [|fuel IH]; intros fuel' element array out Hrun Hle;
    [discriminate|].
  destruct fuel' as [|fuel']; [lia|]. cbn [range_descending] in *.
  destruct (element >? end_); [|assumption]. apply IH; [assumption | lia].
Qed.



End RangeLoops.



(** [iterations] is the least number of steps that covers the distance. *)
Lemma iterations_reach distance step :
  1 <= step -> 0 <= distance ->
  distance <= Z.of_nat (iterations distance step) * step.
Proof.
  intros Hstep Hdist. unfold iterations.
  rewrite Z2Nat.id by (apply Z.div_pos; lia).
  pose proof (Z.mul_succ_div_gt (distance + step - 1) step ltac:(lia)). lia.
Qed.

Lemma iterations_short distance step (i : nat) :
  1 <= step -> 0 <= distance ->
  (i < iterations distance step)%nat -> Z.of_nat i * step < distance.
Proof.
  intros Hstep Hdist Hi. unfold iterations in Hi.
  assert (Hq : 0 <= (distance + step - 1) / step) by (apply Z.div_pos; lia).
  assert (Hi' : Z.of_nat i + 1 <= (distance + step - 1) / step) by lia.
  pose proof (Z.mul_div_le (distance + step - 1) step ltac:(lia)). nia.
Qed.

(** The sign test of [range] tells whether [end_] is below [start]: the
    rounding of the difference keeps its sign. *)
Lemma range_sign_descending end_ start :
  (Z.sgn (double_sub end_ start) =? -1) = (end_ <? start).
Proof.
  unfold double_sub. rewrite round_double_sgn.
  destruct (Z.ltb_spec end_ start) as [Hlt|Hge].
  - apply Z.eqb_eq. apply Z.sgn_neg. lia.
  - apply Z.eqb_neq. pose proof (Z.sgn_nonneg (end_ - start)). lia.
Qed.

(** With a step of at least one and [start] and [end_] within the exact
    integers, enough fuel gives the progression. *)
Lemma range_enough_fuel end_ start step fuel :
  1 <= step ->
  Z.abs start <= EXACT_LIMIT -> Z.abs end_ <= EXACT_LIMIT ->
  (iterations (Z.abs (end_ - start)) step < fuel)%nat ->
  range fuel end_ start step
  = Some (progression start (if end_ <? start then - step else step)
                      (iterations (Z.abs (end_ - start)) step)).
Proof.
  intros Hstep Hstart Hend Hfuel. unfold range. rewrite range_sign_descending.
  pose proof (iterations_reach (Z.abs (end_ - start)) step Hstep ltac:(lia))
    as Hreach.
  destruct (Z.ltb_spec end_ start) as [Hlt|Hge].
  - rewrite range_descending_stops
      with (count := iterations (Z.abs (end_ - start)) step);
      [reflexivity | exact Hfuel | lia | lia | lia | | lia].
    intros i Hi.
    pose proof (iterations_short (Z.abs (end_ - start)) step i Hstep
                  ltac:(lia) Hi). lia.
  - rewrite range_ascending_stops
      with (count := iterations (Z.abs (end_ - start)) step);
      [reflexivity | exact Hfuel | lia | lia | lia | | lia].
    intros i Hi.
    pose proof (iterations_short (Z.abs (end_ - start)) step i Hstep
                  ltac:(lia) Hi). lia.
Qed.

(** What [range] returns, whatever the fuel it returned with. *)
Lemma range_result end_ start step fuel array :
  1 <= step ->
  Z.abs start <= EXACT_LIMIT -> Z.abs end_ <= EXACT_LIMIT ->
  range fuel end_ start step = Some array ->
  array = progression start (if end_ <? start then - step else step)
                      (iterations (Z.abs (end_ - start)) step).
Proof.
  intros Hstep Hstart Hend Hrun.
  set (count := iterations (Z.abs (end_ - start)) step).
  assert (Hmore : range (Nat.max fuel (S count)) end_ start step = Some array).
  { unfold range in *. destruct (Z.sgn (double_sub end_ start) =? -1).
    - eapply range_descending_more_fuel; [exact Hrun | lia].
    - eapply range_ascending_more_fuel; [exact Hrun | lia]. }
  rewrite range_enough_fuel in Hmore by (try assumption; fold count; lia).
  injection Hmore as <-. reflexivity.
Qed.




(** ** The evaluator *)

Lemma isFormulaValue_string value :
  Formula.isFormulaValue value = true -> exists s, value = JString s.
Proof. destruct value; try discriminate. intros _. now exists s. Qed.

(** The type guard narrows exactly the formula cells. *)
Lemma asFormulaCell_formula (cell : Cell) :
  isFormulaCell cell = true ->
  exists formulaCell,
    asFormulaCell cell = Some formulaCell /\
    Types.value cell = JString (Types.value formulaCell).
Proof.
  intros Hformula. unfold asFormulaCell. rewrite Hformula.
  destruct (isFormulaValue_string _ Hformula) as [s Hs]. rewrite Hs.
  eexists. split; reflexivity.
Qed.

Lemma asFormulaCell_literal (cell : Cell) :
  isFormulaCell cell = false -> asFormulaCell cell = None.
Proof. intros Hliteral. unfold asFormulaCell. now rewrite Hliteral. Qed.

(** C1. [getComputedValue] has three cases. An absent cell gives [null].
    A formula cell is narrowed to a string cell and handed to
    [getFormulaComputedValue], which passes the extracted expression to
    the injected parser and returns what comes back. Any other cell
    gives its stored value. So [{value: "hello"}] gives ["hello"], an
    absent cell gives [null], and [{value: "=1+1"}] gives [2] with a
    parser that answers ["1+1"] with [{result: 2}]. *)
Theorem getComputedValue_dispatch (cell : option Cell) (formulaParser : Parser) :
  match cell with
  | None => getComputedValue cell formulaParser = JNull
  | Some c =>
      if isFormulaCell c
      then exists formulaCell,
          asFormulaCell c = Some formulaCell /\
          Types.value c = JString (Types.value formulaCell) /\
          getComputedValue cell formulaParser
          = getFormulaComputedValue formulaCell formulaParser /\
          getComputedValue cell formulaParser
          = let response :=
              parse formulaParser
                    (Formula.extractFormula (Types.value formulaCell)) in
            js_or (error response) (result response)
      else getComputedValue cell formulaParser = Types.value c
  end /\
  getComputedValue (Some (cellOf (JString "hello"))) formulaParser
  = JString "hello" /\
  getComputedValue None formulaParser = JNull /\
  getComputedValue (Some (cellOf (JString "=1+1"))) onePlusOneParser = JNumber 2.
Proof.
  split; [|repeat split].
  destruct cell as [c|]; [|reflexivity].
  destruct (isFormulaCell c) eqn:Hformula.
  - destruct (asFormulaCell_formula c Hformula) as (formulaCell & Hnarrow & Hvalue).
    exists formulaCell. cbn [getComputedValue]. rewrite Hnarrow.
    repeat split; assumption.
  - cbn [getComputedValue]. now rewrite asFormulaCell_literal.
Qed.

(** C9. A present cell whose value is not a formula value gives back its
    stored value. In particular a present cell whose value is
    [undefined] gives [undefined], which is not the [null] of an absent
    cell. *)
Theorem getComputedValue_literal (cell : Cell) (formulaParser : Parser)
        (Hliteral : Formula.isFormulaValue (Types.value cell) = false) :
  getComputedValue (Some cell) formulaParser = Types.value cell /\
  (forall emptyCell : Cell,
      Types.value emptyCell = JUndefined ->
      getComputedValue (Some emptyCell) formulaParser = JUndefined /\
      getComputedValue (Some emptyCell) formulaParser
      <> getComputedValue None formulaParser).
Proof.
  assert (Hstored : forall c : Cell,
             Formula.isFormulaValue (Types.value c) = false ->
             getComputedValue (Some c) formulaParser = Types.value c).
  { intros c Hc. cbn [getComputedValue]. now rewrite asFormulaCell_literal. }
  split; [now apply Hstored|].
  intros emptyCell Hempty.
  rewrite Hstored by now rewrite Hempty.
  rewrite Hempty. split; [reflexivity | discriminate].
Qed.

Lemma getComputedValue_literal_witness :
  Formula.isFormulaValue (Types.value (cellOf (JNumber 0))) = false /\
  getComputedValue (Some (cellOf (JNumber 0))) onePlusOneParser = JNumber 0 /\
  getComputedValue (Some (cellOf JUndefined)) onePlusOneParser = JUndefined.
Proof.
  assert (Hliteral :
            Formula.isFormulaValue (Types.value (cellOf (JNumber 0))) = false)
    by reflexivity.
  split; [exact Hliteral|].
  destruct (getComputedValue_literal (cellOf (JNumber 0)) onePlusOneParser
              Hliteral) as [Hstored Hempty].
  split; [exact Hstored|].
  exact (proj1 (Hempty (cellOf JUndefined) eq_refl)).
Defined.

(** C4, as the code has it. Whatever the formula cell and the parser, a
    response of the shape [{ error }] with a non-empty error string
    comes back as that string, and a response of the shape [{ result }]
    comes back as that result, be it a string, a number or a boolean,
    falsy ones included. Both leave through the one return value. The
    same holds for responses that carry both fields: a non-empty error
    string wins, and a falsy error ([null], [undefined], the empty
    string) lets the result through. *)
Theorem getFormulaComputedValue_verbatim
        (cell : Types.CellBase string) (formulaParser : Parser)
        (response : ParseResponse)
        (Hparse : parse formulaParser
                        (Formula.extractFormula (Types.value cell)) = response) :
  (forall e, response = failure e -> e <> EmptyString ->
             getFormulaComputedValue cell formulaParser = JString e) /\
  (forall r, response = success r -> FormulaParseResult r = true ->
             getFormulaComputedValue cell formulaParser = r) /\
  (forall e, error response = JString e -> e <> EmptyString ->
             getFormulaComputedValue cell formulaParser = JString e) /\
  (truthy (error response) = false ->
   getFormulaComputedValue cell formulaParser = result response).
Proof.
  unfold getFormulaComputedValue. cbv zeta. rewrite Hparse.
  assert (Herror : forall e, error response = JString e -> e <> EmptyString ->
                             js_or (error response) (result response) = JString e).
  { intros e -> Hnonempty. unfold js_or. cbn.
    destruct (String.eqb_spec e EmptyString); [contradiction | reflexivity]. }
  repeat split.
  - intros e -> Hnonempty. now apply Herror.
  - intros r -> _. reflexivity.
  - exact Herror.
  - intros Hfalsy. unfold js_or. now rewrite Hfalsy.
Qed.

Lemma getFormulaComputedValue_verbatim_witness :
  getFormulaComputedValue (cellOf "=1+1"%string) onePlusOneParser = JNumber 2 /\
  getFormulaComputedValue (cellOf "=1+"%string) onePlusOneParser
  = JString "#ERROR!".
Proof.
  split.
  - apply (proj1 (proj2 (getFormulaComputedValue_verbatim
                             (cellOf "=1+1"%string) onePlusOneParser
                             (success (JNumber 2)) eq_refl)) (JNumber 2));
      reflexivity.
  - apply (proj1 (getFormulaComputedValue_verbatim
                    (cellOf "=1+"%string) onePlusOneParser
                    (failure "#ERROR!") eq_refl) "#ERROR!"%string);
      [reflexivity | discriminate].
Defined.

(** The claim as stated does not hold for the empty error string: it is
    falsy, so [error || result] moves on to the missing result. *)
Lemma getFormulaComputedValue_empty_error :
  parse (constantParser (failure EmptyString))
        (Formula.extractFormula (Types.value (cellOf "=1+1"%string)))
  = failure EmptyString /\
  getFormulaComputedValue (cellOf "=1+1"%string)
                          (constantParser (failure EmptyString))
  = JUndefined /\
  getFormulaComputedValue (cellOf "=1+1"%string)
                          (constantParser (failure EmptyString))
  <> JString EmptyString.
Proof. repeat split. discriminate. Qed.

(** ** The clipboard *)

(** C5, as the code has it. [readTextFromClipboard] has two sources,
    and the global one comes first. On a platform with a global
    clipboard accessor it reads the ["Text"] entry there, whatever the
    event holds; only without that accessor it reads the plain-text
    payload of the event's clipboard data; when neither source can be
    read the result is the empty string. *)
Theorem readTextFromClipboard_sources (window : Window) (event : ClipboardEvent) :
  readTextFromClipboard window event =
  match window_clipboardData window ≫= getData with
  | Some windowGetData => windowGetData "Text"%string
  | None =>
      match clipboardData event ≫= getData with
      | Some eventGetData => eventGetData PLAIN_TEXT_MIME
      | None => EmptyString
      end
  end.
Proof.
  unfold readTextFromClipboard.
  destruct window as [[[[g|]]|]], event as [[[[h|]]|]]; reflexivity.
Qed.

(** The claim as stated does not hold when both sources are there: the
    event's plain-text payload is ["hello"], and what is read is the
    ["legacy"] of the global accessor. *)
Lemma readTextFromClipboard_global_first :
  match clipboardData (eventHolding "hello") ≫= getData with
  | Some eventGetData => eventGetData PLAIN_TEXT_MIME = "hello"%string
  | None => False
  end /\
  readTextFromClipboard (windowHolding "legacy") (eventHolding "hello")
  = "legacy"%string /\
  readTextFromClipboard (windowHolding "legacy") (eventHolding "hello")
  <> "hello"%string.
Proof. repeat split. discriminate. Qed.

(** ** Pixel dimensions *)

Lemma getCellDimensions_defined point state :
  bool_decide (is_Some (getCellDimensions point state))
  = hasDimensions point state.
Proof.
  unfold getCellDimensions, hasDimensions.
  destruct (Types.rowDimensions state !! Point.row point),
    (Types.columnDimensions state !! Point.column point); reflexivity.
Qed.

(** C10. [getRangeDimensions] is defined exactly when the start and the
    end corner both have row and column metadata in the state. When
    defined, [left] and [top] are those of the start cell and [width]
    and [height] reach to the far edge of the end cell; when something
    is missing the result is [undefined]. *)
Theorem getRangeDimensions_defined (state : Types.StoreState)
        (range : PointRange.PointRange) :
  bool_decide (is_Some (getRangeDimensions state range))
  = hasDimensions (PointRange.start range) state
    && hasDimensions (PointRange.end_ range) state /\
  getRangeDimensions state range =
  match Types.rowDimensions state !! Point.row (PointRange.start range),
        Types.columnDimensions state !! Point.column (PointRange.start range),
        Types.rowDimensions state !! Point.row (PointRange.end_ range),
        Types.columnDimensions state !! Point.column (PointRange.end_ range)
  with
  | Some startRow, Some startColumn, Some endRow, Some endColumn =>
      Some {| Types.width :=
                Types.column_left endColumn + Types.column_width endColumn
                - Types.column_left startColumn;
              Types.height :=
                Types.row_top endRow + Types.row_height endRow
                - Types.row_top startRow;
              Types.left := Types.column_left startColumn;
              Types.top := Types.row_top startRow |}
  | _, _, _, _ => None
  end.
Proof.
  split.
  - rewrite <- !getCellDimensions_defined. unfold getRangeDimensions.
    destruct (getCellDimensions (PointRange.start range) state),
      (getCellDimensions (PointRange.end_ range) state); reflexivity.
  - unfold getRangeDimensions, getCellDimensions.
    destruct (Types.rowDimensions state !! Point.row (PointRange.start range)),
      (Types.columnDimensions state !! Point.column (PointRange.start range)),
      (Types.rowDimensions state !! Point.row (PointRange.end_ range)),
      (Types.columnDimensions state !! Point.column (PointRange.end_ range));
      reflexivity.
Qed.

(** ** Grid size *)

(** C7. The grid size is the componentwise maximum of the size derived
    from the data and the lengths of the label arrays that were passed;
    a missing array contributes nothing. For data of two rows and two
    columns, such as the sample, and three row labels it is three rows
    by two columns. *)
Theorem calculateSpreadsheetSize_max {T} (data : Matrix.Matrix T)
        (rowLabels columnLabels : option (list string)) :
  calculateSpreadsheetSize data rowLabels columnLabels
  = {| Matrix.rows :=
         Nat.max (Matrix.rows (Matrix.getSize data)) (labelsLength rowLabels);
       Matrix.columns :=
         Nat.max (Matrix.columns (Matrix.getSize data))
                 (labelsLength columnLabels) |} /\
  (forall labels : list string,
      Matrix.getSize data = {| Matrix.rows := 2; Matrix.columns := 2 |} ->
      List.length labels = 3%nat ->
      calculateSpreadsheetSize data (Some labels) None
      = {| Matrix.rows := 3; Matrix.columns := 2 |}) /\
  Matrix.getSize abcd = {| Matrix.rows := 2; Matrix.columns := 2 |} /\
  calculateSpreadsheetSize abcd (Some ["1"; "2"; "3"]%string) None
  = {| Matrix.rows := 3; Matrix.columns := 2 |}.
Proof.
  split; [|split; [|split; reflexivity]].
  - unfold calculateSpreadsheetSize.
    destruct rowLabels, columnLabels; cbn [labelsLength];
      rewrite ?Nat.max_0_r; reflexivity.
  - intros labels Hsize Hlabels. unfold calculateSpreadsheetSize.
    now rewrite Hsize, Hlabels.
Qed.

Lemma calculateSpreadsheetSize_max_witness :
  calculateSpreadsheetSize abcd (Some ["x"; "y"; "z"]%string) None
  = {| Matrix.rows := 3; Matrix.columns := 2 |}.
Proof.
  apply (proj1 (proj2 (calculateSpreadsheetSize_max abcd None None)));
    reflexivity.
Defined.

(** ** Selections *)

Lemma clamp_between lo hi x :
  (lo <= hi)%nat -> (lo <= PointRange.clamp lo hi x <= hi)%nat.
Proof. unfold PointRange.clamp. lia. Qed.

(** Masking against well-formed bounds lands inside the bounds. *)
Lemma mask_contains range bounds :
  PointRange.inside bounds (PointRange.start bounds) ->
  PointRange.contains bounds (PointRange.mask range bounds).
Proof.
  intros [[_ Hrows] [_ Hcolumns]].
  unfold PointRange.contains, PointRange.inside, PointRange.mask,
    PointRange.clampPoint.
  cbn [PointRange.start PointRange.end_ Point.row Point.column].
  pose proof (clamp_between _ _ (Point.row (PointRange.start range)) Hrows).
  pose proof (clamp_between _ _ (Point.row (PointRange.end_ range)) Hrows).
  pose proof (clamp_between _ _ (Point.column (PointRange.start range)) Hcolumns).
  pose proof (clamp_between _ _ (Point.column (PointRange.end_ range)) Hcolumns).
  tauto.
Qed.

(** The constructor puts the corners in order. *)
Lemma create_ordered a b :
  PointRange.inside (PointRange.create a b)
                    (PointRange.start (PointRange.create a b)).
Proof. unfold PointRange.inside, PointRange.create. cbn. lia. Qed.

(** C3. A range selection is masked to the range of the data matrix and
    every other selection is returned as it is; the range of the result,
    when it has one, lies within the range of the data matrix. *)
Theorem normalizeSelected_contained {T} (data : Matrix.Matrix T)
        (selected : Types.Selected) :
  match selected with
  | Types.RangeSelection range =>
      normalizeSelected selected data
      = Types.RangeSelection (PointRange.mask range (getMatrixRange data))
  | _ => normalizeSelected selected data = selected
  end /\
  match normalizeSelected selected data with
  | Types.RangeSelection masked =>
      PointRange.contains (getMatrixRange data) masked
  | _ => True
  end.
Proof.
  split.
  - destruct selected; reflexivity.
  - destruct selected; cbn; try exact I.
    apply mask_contains. unfold getMatrixRange. apply create_ordered.
Qed.

Lemma seq_sorted first count : StronglySorted lt (seq first count).
Proof.
  revert first. induction count as [|count IH]; intros first; cbn [seq].
  - constructor.
  - constructor; [apply IH|]. apply List.Forall_forall. intros x Hx.
    apply in_seq in Hx. lia.
Qed.

(** Rows in ascending order, and within a row the columns in ascending
    order, make a row-major sequence. *)
Lemma rows_sorted (columns rows : list nat) :
  StronglySorted lt columns ->
  StronglySorted lt rows ->
  StronglySorted Point.lt
    (flat_map (fun r => map (fun c => {| Point.row := r; Point.column := c |})
                            columns) rows).
Proof.
  intros Hcolumns.
  induction 1 as [|r rows Hsorted IH Hlater]; cbn [flat_map]; [constructor|].
  apply StronglySorted_app_2.
  - intros p q Hp Hq. apply list_elem_of_In in Hp, Hq.
    apply in_map_iff in Hp. destruct Hp as (c & <- & _).
    apply in_flat_map in Hq. destruct Hq as (r' & Hr' & Hq).
    apply in_map_iff in Hq. destruct Hq as (c' & <- & _).
    left. cbn. rewrite List.Forall_forall in Hlater. now apply Hlater.
  - apply (StronglySorted_fmap _ lt); [|exact Hcolumns].
    intros c c' Hlt. right. cbn. split; [reflexivity | exact Hlt].
  - exact IH.
Qed.

Section Iterate.

Variable range : PointRange.PointRange.

(** The points that [iterate] yields are those of the rectangle. *)
Lemma iterate_In p :
  In p (PointRange.iterate range) <-> PointRange.inside range p.
Proof.
  unfold PointRange.iterate, PointRange.inside. rewrite in_flat_map. split.
  - intros (r & Hr & Hp). apply in_map_iff in Hp. destruct Hp as (c & <- & Hc).
    apply in_seq in Hr, Hc. cbn. lia.
  - intros [Hr Hc]. exists (Point.row p). split; [apply in_seq; lia|].
    apply in_map_iff. exists (Point.column p).
    split; [now destruct p | apply in_seq; lia].
Qed.

Lemma iterate_sorted : StronglySorted Point.lt (PointRange.iterate range).
Proof. apply rows_sorted; apply seq_sorted. Qed.

Lemma iterate_length :
  List.length (PointRange.iterate range)
  = ((S (Point.row (PointRange.end_ range)) - Point.row (PointRange.start range))
     * (S (Point.column (PointRange.end_ range))
        - Point.column (PointRange.start range)))%nat.
Proof.
  unfold PointRange.iterate.
  erewrite flat_map_constant_length; [now rewrite length_seq|].
  intros r _. now rewrite length_map, length_seq.
Qed.

End Iterate.

(** C6. For a range selection [getSelectedPoints] is the materialised
    iteration of the range: the points of the rectangle, each once, rows
    in ascending order and columns in ascending order within a row. For
    every other selection it is the empty array. *)
Theorem getSelectedPoints_range_or_empty (selected : Types.Selected) :
  match selected with
  | Types.RangeSelection range =>
      getSelectedPoints selected = PointRange.iterate range /\
      StronglySorted Point.lt (getSelectedPoints selected) /\
      (forall p, In p (getSelectedPoints selected) <-> PointRange.inside range p) /\
      List.length (getSelectedPoints selected)
      = ((S (Point.row (PointRange.end_ range))
          - Point.row (PointRange.start range))
         * (S (Point.column (PointRange.end_ range))
            - Point.column (PointRange.start range)))%nat
  | _ => getSelectedPoints selected = []
  end /\
  getSelectedPoints
    (Types.RangeSelection (PointRange.create (pointAt 0 0) (pointAt 1 1)))
  = [pointAt 0 0; pointAt 0 1; pointAt 1 0; pointAt 1 1].
Proof.
  split; [|reflexivity].
  destruct selected as [|range| | |]; try reflexivity.
  cbn [getSelectedPoints PointRange_is].
  split; [reflexivity|]. split; [apply iterate_sorted|].
  split; [apply iterate_In | apply iterate_length].
Qed.

(** ** CSV export *)

(** Two cell functions that agree on the cells of a matrix map it to the
    same matrix. *)
Lemma Matrix_map_ext {T U} (f g : option T -> U) (matrix : Matrix.Matrix T) :
  (forall point, f (Matrix.get point matrix) = g (Matrix.get point matrix)) ->
  Matrix.map f matrix = Matrix.map g matrix.
Proof.
  intros Hagree. unfold Matrix.map.
  apply map_ext. intros r. apply map_ext. intros c. now rewrite Hagree.
Qed.

(** [cell?.value || ""] keeps a truthy value and turns everything else
    into the empty string. *)
Lemma cellValueOrEmpty_cases (cell : option Cell) :
  cellValueOrEmpty cell =
  match cell with
  | Some c => if truthy (Types.value c) then Types.value c else JString EmptyString
  | None => JString EmptyString
  end.
Proof. destruct cell; reflexivity. Qed.

(** C2, at the input where the code and the claim part. The selection
    is the single cell of a matrix that holds the number zero: the code
    exports the empty string, because zero is falsy in
    [cell?.value || ""], where the literal value would be exported as
    ["0"]. *)
Theorem getSelectedCSV_drops_zero :
  getSelectedCSV (Types.RangeSelection (PointRange.create Point.ORIGIN Point.ORIGIN))
                 zeroCell
  = EmptyString /\
  getSelectedCSV_literal
    (Types.RangeSelection (PointRange.create Point.ORIGIN Point.ORIGIN)) zeroCell
  = "0"%string /\
  Matrix.get Point.ORIGIN zeroCell = Some (cellOf (JNumber 0)).
Proof. repeat split. Qed.

(** What [getSelectedCSV] does: the empty string for a selection that
    is not a range; for a range, the join of the slice of the data after
    every cell was mapped through [cell?.value || ""]. For the two by
    two sample with everything selected the text is ["a\tb\nc\td"]. *)
Theorem getSelectedCSV_export (selected : Types.Selected)
        (data : Matrix.Matrix Cell) :
  match selected with
  | Types.RangeSelection range =>
      getSelectedCSV selected data
      = Matrix.join
          (Matrix.map cellValueOrEmpty
                      (Matrix.slice (PointRange.start range)
                                    (PointRange.end_ range) data))
  | _ => getSelectedCSV selected data = EmptyString
  end /\
  getSelectedCSV
    (Types.RangeSelection (PointRange.create (pointAt 0 0) (pointAt 1 1))) abcd
  = abcdCSV /\
  getSelectedCSV (Types.RangeSelection (getMatrixRange abcd)) abcd = abcdCSV.
Proof.
  split; [destruct selected; reflexivity | split; reflexivity].
Qed.

(** X2. The export is the literal one whenever no selected cell holds a
    falsy value other than the empty string: raw values are exported,
    formula values included, and nothing is evaluated. *)
Theorem getSelectedCSV_literal_values (selected : Types.Selected)
        (data : Matrix.Matrix Cell)
        (Hvalues : forall range point cell,
            PointRange_is selected = Some range ->
            Matrix.get point (getRangeFromMatrix range data) = Some cell ->
            truthy (Types.value cell) = true
            \/ Types.value cell = JString EmptyString) :
  getSelectedCSV selected data = getSelectedCSV_literal selected data.
Proof.
  unfold getSelectedCSV, getSelectedCSV_literal, getCSV.
  destruct (PointRange_is selected) as [range|] eqn:Hrange; [|reflexivity].
  cbv zeta. f_equal. apply Matrix_map_ext. intros point.
  rewrite cellValueOrEmpty_cases.
  destruct (Matrix.get point (getRangeFromMatrix range data)) as [cell|] eqn:Hget;
    [|reflexivity].
  cbn [literalValueOrEmpty].
  destruct (Hvalues range point cell eq_refl Hget) as [Htruthy|Hempty].
  - now rewrite Htruthy.
  - now rewrite Hempty.
Qed.

Lemma getSelectedCSV_literal_values_witness :
  getSelectedCSV
    (Types.RangeSelection (PointRange.create (pointAt 0 0) (pointAt 1 1))) abcd
  = getSelectedCSV_literal
      (Types.RangeSelection (PointRange.create (pointAt 0 0) (pointAt 1 1))) abcd.
Proof.
  apply getSelectedCSV_literal_values.
  intros range point cell Hrange Hget.
  injection Hrange as <-.
  destruct point as [[|[|r]] [|[|c]]]; cbn in Hget;
    try discriminate; injection Hget as <-; left; reflexivity.
Defined.

(** * Further properties *)

(** ** [range], beyond its termination *)



Lemma progression_sorted start stride count :
  0 < stride -> StronglySorted Z.lt (progression start stride count).
Proof.
  intros Hstride. unfold progression.
  apply (StronglySorted_fmap _ lt); [|apply seq_sorted].
  intros i j Hij. nia.
Qed.

Lemma progression_sorted_down start stride count :
  stride < 0 -> StronglySorted Z.gt (progression start stride count).
Proof.
  intros Hstride. unfold progression.
  apply (StronglySorted_fmap _ lt); [|apply seq_sorted].
  intros i j Hij. nia.
Qed.



(** X4. What a returned array holds, for a step of at least one and
    [start] and [end_] of a magnitude of at most [2^53]: going up,
    exactly the values from [start] up to but not including [end_] that
    are a multiple of the step away from [start]; going down, exactly
    those from [start] down to but not including [end_]. The values come
    in strictly ascending (descending) order, so none repeats, and there
    are as many as steps are needed to cover the distance. *)
Theorem range_members (end_ start step : Z) (fuel : nat) (array : list Z)
        (Hstep : 1 <= step)
        (Hstart : Z.abs start <= EXACT_LIMIT)
        (Hend : Z.abs end_ <= EXACT_LIMIT)
        (Hrun : range fuel end_ start step = Some array) :
  (forall x,
      In x array <->
      if end_ <? start
      then end_ < x <= start /\ (step | start - x)
      else start <= x < end_ /\ (step | x - start)) /\
  List.length array = iterations (Z.abs (end_ - start)) step /\
  StronglySorted (if end_ <? start then Z.gt else Z.lt) array.
Proof.
  apply range_result in Hrun; [|assumption..]. subst array.
  set (count := iterations (Z.abs (end_ - start)) step).
  pose proof (iterations_reach (Z.abs (end_ - start)) step Hstep ltac:(lia))
    as Hreach. fold count in Hreach.
  split; [|split].
  - intros x. rewrite progression_In. split.
    + intros (i & Hi & ->).
      pose proof (iterations_short (Z.abs (end_ - start)) step i Hstep
                  ltac:(lia) Hi) as Hshort.
      destruct (Z.ltb_spec end_ start).
      * split; [lia|]. exists (Z.of_nat i). lia.
      * split; [lia|]. exists (Z.of_nat i). lia.
    + destruct (Z.ltb_spec end_ start) as [Hlt|Hge].
      * intros [Hx [k Hk]]. assert (0 <= k) by nia.
        exists (Z.to_nat k). split; [|lia].
        apply Nat2Z.inj_lt. rewrite Z2Nat.id by assumption. nia.
      * intros [Hx [k Hk]]. assert (0 <= k) by nia.
        exists (Z.to_nat k). split; [|lia].
        apply Nat2Z.inj_lt. rewrite Z2Nat.id by assumption. nia.
  - apply progression_length.
  - destruct (end_ <? start).
    + apply progression_sorted_down. lia.
    + apply progression_sorted. lia.
Qed.

Lemma range_members_witness :
  In 4 [0; 2; 4] /\ ~ In 3 [0; 2; 4].
Proof.
  assert (Hstep : 1 <= 2) by lia.
  assert (Hstart : Z.abs 0 <= EXACT_LIMIT) by (vm_compute; discriminate).
  assert (Hend : Z.abs 5 <= EXACT_LIMIT) by (vm_compute; discriminate).
  assert (Hrun : range 4 5 0 2 = Some [0; 2; 4]) by reflexivity.
  destruct (range_members 5 0 2 4 [0; 2; 4] Hstep Hstart Hend Hrun)
    as (Hin & _ & _).
  split.
  - apply Hin. cbn. split; [lia|]. exists 2. lia.
  - intros H3. apply Hin in H3. cbn in H3. destruct H3 as [_ [k Hk]]. lia.
Defined.



(** ** Pixel dimensions, beyond definedness *)

(** X6. The box of a range that consists of one cell is the box of that
    cell, and it is missing exactly when the cell's box is. *)
Theorem getRangeDimensions_single_cell (state : Types.StoreState)
        (point : Point.Point) :
  getRangeDimensions state
                     {| PointRange.start := point; PointRange.end_ := point |}
  = getCellDimensions point state.
Proof.
  unfold getRangeDimensions. cbn [PointRange.start PointRange.end_].
  destruct (getCellDimensions point state) as [[w h l t]|]; [|reflexivity].
  cbn. do 2 f_equal; lia.
Qed.

(** X7. Boxes of ranges that share a corner add up. When the boxes from
    [a] to [b] and from [b] to [c] are defined, so are the box from [a]
    to [c] and the box of [b]; the long box starts where the first one
    starts, and its width and height are the sums of the two, less the
    shared cell. *)
Theorem getRangeDimensions_compose (state : Types.StoreState)
        (a b c : Point.Point) (first second : Types.Dimensions)
        (Hfirst : getRangeDimensions
                    state {| PointRange.start := a; PointRange.end_ := b |}
                  = Some first)
        (Hsecond : getRangeDimensions
                     state {| PointRange.start := b; PointRange.end_ := c |}
                   = Some second) :
  exists whole shared,
    getRangeDimensions state {| PointRange.start := a; PointRange.end_ := c |}
    = Some whole /\
    getCellDimensions b state = Some shared /\
    Types.left whole = Types.left first /\
    Types.top whole = Types.top first /\
    Types.width whole
    = Types.width first + Types.width second - Types.width shared /\
    Types.height whole
    = Types.height first + Types.height second - Types.height shared.
Proof.
  unfold getRangeDimensions in *. cbn [PointRange.start PointRange.end_] in *.
  destruct (getCellDimensions a state) as [da|]; [|discriminate].
  destruct (getCellDimensions b state) as [db|]; [|discriminate].
  destruct (getCellDimensions c state) as [dc|]; [|discriminate].
  injection Hfirst as <-. injection Hsecond as <-.
  eexists. exists db. split; [reflexivity|]. split; [reflexivity|].
  cbn. repeat split; lia.
Qed.

(** X8. Recording the metadata of a row and of a column makes the cell
    where they meet measurable, with exactly the recorded numbers; and
    the box of a range does not change when metadata is recorded for a
    row and a column that neither of its corners lies in. *)
Theorem getRangeDimensions_frame (state : Types.StoreState)
        (range : PointRange.PointRange) (r c : nat)
        (rowMeta : Types.RowDimensions) (columnMeta : Types.ColumnDimensions)
        (Hrow_start : r <> Point.row (PointRange.start range))
        (Hrow_end : r <> Point.row (PointRange.end_ range))
        (Hcolumn_start : c <> Point.column (PointRange.start range))
        (Hcolumn_end : c <> Point.column (PointRange.end_ range)) :
  getRangeDimensions
    (withColumnDimensions c columnMeta (withRowDimensions r rowMeta state)) range
  = getRangeDimensions state range /\
  getCellDimensions
    {| Point.row := r; Point.column := c |}
    (withColumnDimensions c columnMeta (withRowDimensions r rowMeta state))
  = Some {| Types.width := Types.column_width columnMeta;
            Types.height := Types.row_height rowMeta;
            Types.left := Types.column_left columnMeta;
            Types.top := Types.row_top rowMeta |}.
Proof.
  split.
  - unfold getRangeDimensions, getCellDimensions, withColumnDimensions,
      withRowDimensions.
    cbn [Types.rowDimensions Types.columnDimensions].
    now rewrite !lookup_insert_ne by assumption.
  - unfold getCellDimensions, withColumnDimensions, withRowDimensions.
    cbn [Types.rowDimensions Types.columnDimensions Point.row Point.column].
    now rewrite !lookup_insert_eq.
Qed.

Lemma getRangeDimensions_compose_witness :
  exists whole shared,
    getRangeDimensions
      measuredState
      {| PointRange.start := pointAt 0 0; PointRange.end_ := pointAt 0 1 |}
    = Some whole /\
    getCellDimensions (pointAt 0 0) measuredState = Some shared /\
    Types.left whole = 0 /\
    Types.top whole = 0 /\
    Types.width whole = 10 + 30 - Types.width shared /\
    Types.height whole = 5 + 5 - Types.height shared.
Proof.
  exact (getRangeDimensions_compose
           measuredState (pointAt 0 0) (pointAt 0 0) (pointAt 0 1)
           {| Types.width := 10; Types.height := 5;
              Types.left := 0; Types.top := 0 |}
           {| Types.width := 30; Types.height := 5;
              Types.left := 0; Types.top := 0 |}
           eq_refl eq_refl).
Defined.

Lemma getRangeDimensions_frame_witness :
  getRangeDimensions
    (withColumnDimensions
       7 {| Types.column_width := 1; Types.column_left := 2 |}
       (withRowDimensions
          9 {| Types.row_height := 3; Types.row_top := 4 |} measuredState))
    {| PointRange.start := pointAt 0 0; PointRange.end_ := pointAt 0 1 |}
  = getRangeDimensions
      measuredState
      {| PointRange.start := pointAt 0 0; PointRange.end_ := pointAt 0 1 |}.
Proof.
  apply (getRangeDimensions_frame
           measuredState
           {| PointRange.start := pointAt 0 0; PointRange.end_ := pointAt 0 1 |}
           9 7); cbn; lia.
Defined.

(** ** The active point *)

(** X10. A point is active exactly when it is the active point of the
    state; nothing is active when there is none. *)
Theorem isActive_iff (active : option Point.Point) (point : Point.Point) :
  isActive active point = true <-> active = Some point.
Proof.
  unfold isActive, Point.isEqual. destruct active as [[r c]|].
  - destruct point as [r' c']. cbn.
    rewrite andb_true_iff, !Nat.eqb_eq. split.
    + intros [-> ->]. reflexivity.
    + intros [= -> ->]. split; reflexivity.
  - split; discriminate.
Qed.

(** ** The evaluator: errors look like results *)

(** X11. The caller of the evaluator cannot tell an error from a result.
    A formula whose evaluation fails with a non-empty error text and a
    formula that evaluates to that very text as a string give the same
    computed value, and so does a literal cell that holds the text. *)
Theorem formula_error_looks_like_result
        (formulaParser : Parser) (failing succeeding : Types.CellBase string)
        (e : string)
        (Hfailing : parse formulaParser
                          (Formula.extractFormula (Types.value failing))
                    = failure e)
        (Hsucceeding : parse formulaParser
                             (Formula.extractFormula (Types.value succeeding))
                       = success (JString e))
        (Hnonempty : e <> EmptyString) :
  getFormulaComputedValue failing formulaParser
  = getFormulaComputedValue succeeding formulaParser /\
  (forall literal : Cell,
      Types.value literal = JString e ->
      isFormulaCell literal = false ->
      getComputedValue (Some literal) formulaParser
      = getFormulaComputedValue failing formulaParser).
Proof.
  assert (Hfail : getFormulaComputedValue failing formulaParser = JString e).
  { unfold getFormulaComputedValue. cbv zeta. rewrite Hfailing.
    unfold js_or. cbn.
    destruct (String.eqb_spec e EmptyString); [contradiction | reflexivity]. }
  split.
  - rewrite Hfail. unfold getFormulaComputedValue. cbv zeta.
    now rewrite Hsucceeding.
  - intros literal Hvalue Hliteral. rewrite Hfail. cbn [getComputedValue].
    now rewrite asFormulaCell_literal.
Qed.

Lemma formula_error_looks_like_result_witness :
  getFormulaComputedValue (cellOf "=1/0"%string) lookalikeParser
  = getFormulaComputedValue (cellOf "=2"%string) lookalikeParser.
Proof.
  refine (proj1 (formula_error_looks_like_result
                   lookalikeParser (cellOf "=1/0"%string) (cellOf "=2"%string)
                   "#DIV/0!"%string eq_refl eq_refl _)).
  discriminate.
Defined.

(** ** Selections, normalised *)

Lemma clamp_idempotent lo hi x :
  PointRange.clamp lo hi (PointRange.clamp lo hi x) = PointRange.clamp lo hi x.
Proof. unfold PointRange.clamp. lia. Qed.

Lemma clamp_inside lo hi x :
  (lo <= x <= hi)%nat -> PointRange.clamp lo hi x = x.
Proof. unfold PointRange.clamp. lia. Qed.

(** X12. Normalising twice against the same data is normalising once
    (with [PointRange.mask] clamping the corners, as the specification
    has it). *)
Theorem normalizeSelected_idempotent {T} (data : Matrix.Matrix T)
        (selected : Types.Selected) :
  normalizeSelected (normalizeSelected selected data) data
  = normalizeSelected selected data.
Proof.
  destruct selected as [|range| | |]; try reflexivity.
  cbn [normalizeSelected PointRange_is].
  unfold PointRange.mask, PointRange.clampPoint.
  cbn [PointRange.start PointRange.end_ Point.row Point.column].
  now rewrite !clamp_idempotent.
Qed.

(** X13. A range selection that lies within the range of the data is
    left as it is by [normalizeSelected] (with [PointRange.mask]
    clamping the corners, as the specification has it). *)
Theorem normalizeSelected_inside_unchanged {T} (data : Matrix.Matrix T)
        (range : PointRange.PointRange)
        (Hinside : PointRange.contains (getMatrixRange data) range) :
  normalizeSelected (Types.RangeSelection range) data
  = Types.RangeSelection range.
Proof.
  destruct Hinside as [[Hsr Hsc] [Her Hec]].
  destruct range as [[sr sc] [er ec]].
  cbn [normalizeSelected PointRange_is].
  unfold PointRange.mask, PointRange.clampPoint.
  cbn [PointRange.start PointRange.end_ Point.row Point.column] in *.
  now rewrite !clamp_inside by assumption.
Qed.

Lemma normalizeSelected_inside_unchanged_witness :
  normalizeSelected
    (Types.RangeSelection (PointRange.create (pointAt 0 1) (pointAt 1 1))) abcd
  = Types.RangeSelection (PointRange.create (pointAt 0 1) (pointAt 1 1)).
Proof.
  apply normalizeSelected_inside_unchanged.
  unfold PointRange.contains, PointRange.inside. cbn. lia.
Defined.

(** X14. Every point that [getSelectedPoints] lists for a normalised
    selection lies within the range of the data (with
    [PointRange.mask] and [PointRange.iterate] as the specification has
    them). *)
Theorem getSelectedPoints_normalized_inside {T} (data : Matrix.Matrix T)
        (selected : Types.Selected) :
  List.Forall (PointRange.inside (getMatrixRange data))
              (getSelectedPoints (normalizeSelected selected data)).
Proof.
  destruct selected as [|range| | |]; try (cbn; constructor).
  cbn [normalizeSelected PointRange_is getSelectedPoints].
  apply List.Forall_forall. intros p Hp. apply iterate_In in Hp.
  assert (Hmask : PointRange.contains (getMatrixRange data)
                    (PointRange.mask range (getMatrixRange data)))
    by (apply mask_contains; unfold getMatrixRange; apply create_ordered).
  unfold PointRange.contains, PointRange.inside in *. lia.
Qed.

(** ** The multi-line viewer *)

Section Split.

Variable separator : ascii.

Lemma js_split_not_nil s : js_split separator s <> [].
Proof.
  destruct s as [|c rest]; cbn; [discriminate|].
  destruct (Ascii.eqb c separator); [discriminate|].
  destruct (js_split separator rest); discriminate.
Qed.

Lemma concat_cons (glue piece : string) (pieces : list string) :
  pieces <> [] ->
  String.concat glue (piece :: pieces)
  = (piece ++ glue ++ String.concat glue pieces)%string.
Proof. destruct pieces; [contradiction | reflexivity]. Qed.

(** Joining the pieces with the separator gives the string back. *)
Lemma js_split_join s :
  String.concat (String separator EmptyString) (js_split separator s) = s.
Proof.
  induction s as [|c rest IH]; [reflexivity|]. cbn [js_split].
  pose proof (js_split_not_nil rest) as Hnil.
  destruct (Ascii.eqb_spec c separator) as [->|Hne].
  - rewrite concat_cons by exact Hnil. now rewrite <- IH at 2.
  - destruct (js_split separator rest) as [|piece pieces]; [contradiction|].
    destruct pieces as [|next pieces].
    + cbn [String.concat] in *. now rewrite IH.
    + rewrite concat_cons in * by discriminate. now rewrite <- IH.
Qed.

(** One piece more than there are separators. *)
Lemma js_split_length s :
  List.length (js_split separator s) = S (occurrences separator s).
Proof.
  induction s as [|c rest IH]; [reflexivity|]. cbn [js_split occurrences].
  destruct (Ascii.eqb c separator).
  - cbn. now rewrite IH.
  - destruct (js_split separator rest); cbn in *; [discriminate | exact IH].
Qed.

(** No piece holds a separator. *)
Lemma js_split_pieces s :
  List.Forall (fun piece => occurrences separator piece = 0%nat)
              (js_split separator s).
Proof.
  induction s as [|c rest IH]; [repeat constructor|]. cbn [js_split].
  destruct (Ascii.eqb c separator) eqn:Hc.
  - constructor; [reflexivity | exact IH].
  - destruct (js_split separator rest) as [|piece pieces].
    + repeat constructor. cbn. now rewrite Hc.
    + inversion IH as [|? ? Hpiece Hpieces]; subst.
      constructor; [|exact Hpieces]. cbn. now rewrite Hc, Hpiece.
Qed.

End Split.

(** X15. [LargeTextMultiLineView] renders one keyed line element per
    line of the cell's text, in order. The lines hold no line feed,
    joined by line feeds they are the text, and there is one more of
    them than the text has line feeds; except that a missing cell, a
    missing value and the empty text render no line at all. What
    [LargeTextEdit] hands to [onChange] for a typed text is a cell that
    the viewer shows as that text. *)
Theorem LargeTextMultiLineView_lines (cell : option TextCell) :
  exists lines,
    LargeTextMultiLineView cell = Fragment (imap lineElement lines) /\
    String.concat Matrix.NEWLINE lines = default EmptyString (cell ≫= Types.value) /\
    List.Forall (fun line => occurrences LINE_FEED line = 0%nat) lines /\
    List.length lines
    = match cell ≫= Types.value with
      | Some text =>
          if String.eqb text EmptyString
          then 0%nat
          else S (occurrences LINE_FEED text)
      | None => 0%nat
      end /\
    (forall typed,
        String.concat Matrix.NEWLINE (stringSetOf (Some (handleChange cell typed)))
        = typed).
Proof.
  assert (Hjoin : forall c : TextCell,
             String.concat Matrix.NEWLINE (stringSetOf (Some c))
             = default EmptyString (Types.value c)).
  { intros c. unfold stringSetOf. destruct (Types.value c) as [text|];
      [|reflexivity].
    destruct (String.eqb_spec text EmptyString) as [->|_]; [reflexivity|].
    apply js_split_join. }
  exists (stringSetOf cell). split; [reflexivity|].
  split; [|split; [|split]].
  - destruct cell as [c|]; [apply Hjoin | reflexivity].
  - unfold stringSetOf. destruct cell as [c|]; [|constructor].
    destruct (Types.value c) as [text|]; [|constructor].
    destruct (String.eqb text EmptyString); [constructor|].
    apply js_split_pieces.
  - unfold stringSetOf. destruct cell as [c|]; [|reflexivity]. cbn.
    destruct (Types.value c) as [text|]; [|reflexivity].
    destruct (String.eqb text EmptyString); [reflexivity|].
    apply js_split_length.
  - intros typed. rewrite Hjoin. now destruct cell.
Qed.

(** ** The evaluator looks at the value only *)

(** X16. The computed value of a cell depends on the cell's value and
    on nothing else in the cell: two cells with the same value compute
    to the same, whatever their [readOnly] and [className]. For a cell
    that is not a formula cell it does not depend on the parser
    either. *)
Theorem getComputedValue_value_only (first second : Cell)
        (formulaParser otherParser : Parser)
        (Hvalue : Types.value first = Types.value second) :
  getComputedValue (Some first) formulaParser
  = getComputedValue (Some second) formulaParser /\
  (isFormulaCell first = false ->
   getComputedValue (Some first) formulaParser
   = getComputedValue (Some second) otherParser).
Proof.
  assert (Hsame : isFormulaCell first = isFormulaCell second)
    by (unfold isFormulaCell; now rewrite Hvalue).
  split.
  - cbn [getComputedValue]. unfold asFormulaCell.
    rewrite <- Hsame, <- Hvalue.
    destruct (isFormulaCell first); [|reflexivity].
    destruct (Types.value first); reflexivity.
  - intros Hliteral. cbn [getComputedValue].
    rewrite !asFormulaCell_literal by congruence. exact Hvalue.
Qed.

Lemma getComputedValue_value_only_witness :
  getComputedValue (Some (cellOf (JString "=1+1"))) onePlusOneParser
  = getComputedValue
      (Some {| Types.value := JString "=1+1";
               Types.readOnly := Some true;
               Types.className := Some "total"%string |})
      onePlusOneParser.
Proof.
  exact (proj1 (getComputedValue_value_only
                  (cellOf (JString "=1+1"))
                  {| Types.value := JString "=1+1";
                     Types.readOnly := Some true;
                     Types.className := Some "total"%string |}
                  onePlusOneParser lookalikeParser eq_refl)).
Defined.
